(** * Mini-Project: the page-mutation state machine of [src/App.tsx]

    The [App] component keeps the document being edited in a handful of
    React state variables and exposes one asynchronous handler per user
    operation.  Every handler reads the state variables it closes over,
    runs a few setters, awaits one call of the PDF engine
    ([./utils/pdfUtils]) and runs a few more setters.

    The embedding keeps that shape:
    - [State] is the record of the nine [useState] variables;
    - a handler is a function of the state it was rendered with (its
      closure) and of its arguments, and produces a [Task]: the sequence of
      [Step]s it performs, in order, and whether it completes or throws;
    - the engine is an interface ([PdfUtils]); a rejected promise is [None];
    - [run] plays a sequence of steps on a state, [renders] lists the states
      React can show (at every [await] and at the end), and
      [Interleaving] runs two handlers together, switching at their
      [await]s. *)

From Stdlib Require Import List ZArith String Ascii Bool Lia.
Import ListNotations.
Open Scope string_scope.
Open Scope list_scope.
Open Scope Z_scope.

Set Implicit Arguments.

(** ** Data *)

(** [Uint8Array]: the byte buffer of a PDF. *)
Definition Uint8Array := list Byte.byte.

(** The browser's [File]: [file.name] and [await file.arrayBuffer()], which
    may reject. *)
Record File := mkFile {
  name : string;
  arrayBuffer : option Uint8Array
}.

(** [./types] is not part of the sources: the four records it declares are
    parameters. *)
Class Types := {
  PdfMetadata : Type;
  PageFilter : Type;
  BorderConfig : Type;
  TextConfig : Type
}.

(** The object [getPdfDetails] resolves to; [loadPdf] reads [thumbnails]. *)
Record PdfDetails := mkDetails {
  thumbnails : list string
}.

(** The functions [App.tsx] calls in [./utils/pdfUtils].  Each returns a
    promise: [Some v] is a promise fulfilled with [v], [None] a rejected
    one. *)
Class PdfUtils {T : Types} := {
  getPdfDetails : Uint8Array -> option PdfDetails;
  movePage : Uint8Array -> Z -> Z -> option Uint8Array;
  removePage : Uint8Array -> Z -> option Uint8Array;
  mergePdfs : Uint8Array -> Uint8Array -> option Uint8Array;
  getMetadata : Uint8Array -> option PdfMetadata;
  updateMetadata : Uint8Array -> PdfMetadata -> option Uint8Array;
  applyFiltersToPage :
    Uint8Array -> Z -> PageFilter -> BorderConfig -> option Uint8Array;
  addTextToPage : Uint8Array -> Z -> TextConfig -> option Uint8Array
}.

Section App.

Context {T : Types} {Engine : PdfUtils}.

(** The [useState] variables of [App], lines 23-33. *)
Record State := mkState {
  pdfBytes : option Uint8Array;
  fileName : string;
  pages : list string;
  loading : bool;
  loadingText : string;
  metadataModalOpen : bool;
  editorModalOpen : bool;
  currentMetadata : option PdfMetadata;
  selectedPageIndex : option Z
}.

(** The initial values given to [useState]. *)
Definition initialState : State :=
  mkState None "" [] false "" false false None None.

(** An engine call, as issued by a handler. *)
Inductive EngineCall :=
| E_getPdfDetails (bytes : Uint8Array)
| E_movePage (bytes : Uint8Array) (from to : Z)
| E_removePage (bytes : Uint8Array) (index : Z)
| E_mergePdfs (bytes mergeBytes : Uint8Array)
| E_getMetadata (bytes : Uint8Array)
| E_updateMetadata (bytes : Uint8Array) (newMeta : PdfMetadata)
| E_applyFiltersToPage (bytes : Uint8Array) (index : Z)
    (filters : PageFilter) (border : BorderConfig)
| E_addTextToPage (bytes : Uint8Array) (index : Z) (config : TextConfig).

(** What a handler does, one step at a time: the nine setters, the two
    ways it reports ([console.error], [alert]), the download it triggers,
    and the two things it awaits. *)
Inductive Step :=
| SetPdfBytes (bytes : Uint8Array)
| SetFileName (n : string)
| SetPages (t : list string)
| SetLoading (b : bool)
| SetLoadingText (t : string)
| SetMetadataModalOpen (b : bool)
| SetEditorModalOpen (b : bool)
| SetCurrentMetadata (m : PdfMetadata)
| SetSelectedPageIndex (i : Z)
| ConsoleError
| Alert (msg : string)
| Download (download : string) (content : Uint8Array)
| ReadFile (f : File)
| Await (c : EngineCall).

(** ** Tasks: a writer of steps with exceptions

    [None] in the second component is a thrown error (a rejected promise
    that was awaited). *)
Definition Task (A : Type) : Type := (list Step * option A)%type.

Definition ret {A} (a : A) : Task A := ([], Some a).

Definition bind {A B} (m : Task A) (k : A -> Task B) : Task B :=
  match snd m with
  | Some a => (fst m ++ fst (k a), snd (k a))
  | None => (fst m, None)
  end.

Definition emit (e : Step) : Task unit := ([e], Some tt).

(** [try { body } catch (err) { handler }] *)
Definition try_catch {A} (body handler : Task A) : Task A :=
  match snd body with
  | Some a => body
  | None => (fst body ++ fst handler, snd handler)
  end.

(** [try { body } finally { fin }]: [fin] runs either way, and the outcome
    is that of [body] unless [fin] itself throws. *)
Definition try_finally {A} (body : Task A) (fin : Task unit) : Task A :=
  (fst body ++ fst fin,
   match snd fin with Some _ => snd body | None => None end).

Definition try_catch_finally {A} (body handler : Task A) (fin : Task unit)
  : Task A :=
  try_finally (try_catch body handler) fin.

Definition steps {A} (m : Task A) : list Step := fst m.
Definition outcome {A} (m : Task A) : option A := snd m.

End App.

Declare Scope task_scope.
Delimit Scope task_scope with task.
Notation "x <- m ;; k" := (bind m (fun x => k))
  (at level 61, m at next level, right associativity) : task_scope.
Notation "m ;; k" := (bind m (fun _ => k))
  (at level 61, right associativity) : task_scope.
Open Scope task_scope.

Section Handlers.

Context {T : Types} {Engine : PdfUtils}.

(** The setters and reporters, as tasks. *)
Definition setPdfBytes (bytes : Uint8Array) := emit (SetPdfBytes bytes).
Definition setFileName (n : string) := emit (SetFileName n).
Definition setPages (t : list string) := emit (SetPages t).
Definition setLoading (b : bool) := emit (SetLoading b).
Definition setLoadingText (t : string) := emit (SetLoadingText t).
Definition setMetadataModalOpen (b : bool) := emit (SetMetadataModalOpen b).
Definition setEditorModalOpen (b : bool) := emit (SetEditorModalOpen b).
Definition setCurrentMetadata (m : PdfMetadata) :=
  emit (SetCurrentMetadata m).
Definition setSelectedPageIndex (i : Z) := emit (SetSelectedPageIndex i).
Definition console_error := emit ConsoleError.
Definition alert (msg : string) := emit (Alert msg).

(** [await call]: the call is issued, the handler suspends, and resumes
    with the value the promise settles to. *)
Definition await {A} (c : EngineCall) (settled : option A) : Task A :=
  ([Await c], settled).

Definition await_arrayBuffer (file : File) : Task Uint8Array :=
  ([ReadFile file], arrayBuffer file).

(** Lines 36-49. *)
Definition loadPdf (bytes : Uint8Array) : Task unit :=
  setLoading true ;;
  setLoadingText "Processing PDF..." ;;
  try_catch_finally
    (setPdfBytes bytes ;;
     details <- await (E_getPdfDetails bytes) (getPdfDetails bytes) ;;
     setPages (thumbnails details))
    (console_error ;;
     alert "Error loading PDF")
    (setLoading false).

(** Lines 51-64. *)
Definition handleFileUpload (file : File) : Task unit :=
  setLoading true ;;
  setLoadingText "Loading file..." ;;
  try_catch
    (bytes <- await_arrayBuffer file ;;
     setFileName (name file) ;;
     loadPdf bytes)
    (console_error ;;
     alert "Failed to load file" ;;
     setLoading false).

(** Lines 66-80.  [s] is the state the handler closes over. *)
Definition handleMerge (s : State) (file : File) : Task unit :=
  match pdfBytes s with
  | None => ret tt
  | Some bytes =>
    setLoading true ;;
    setLoadingText "Merging PDFs..." ;;
    try_catch
      (mergeBytes <- await_arrayBuffer file ;;
       newPdfBytes <-
         await (E_mergePdfs bytes mergeBytes) (mergePdfs bytes mergeBytes) ;;
       loadPdf newPdfBytes)
      (console_error ;;
       alert "Failed to merge PDF" ;;
       setLoading false)
  end.

(** Lines 82-96. *)
Definition handleMovePage (s : State) (from to : Z) : Task unit :=
  match pdfBytes s with
  | None => ret tt
  | Some bytes =>
    if (to <? 0) || (to >=? Z.of_nat (List.length (pages s))) then ret tt
    else
      setLoading true ;;
      setLoadingText "Reordering..." ;;
      try_catch_finally
        (newBytes <-
           await (E_movePage bytes from to) (movePage bytes from to) ;;
         loadPdf newBytes)
        console_error
        (setLoading false)
  end.

(** Lines 98-110. *)
Definition handleDeletePage (s : State) (index : Z) : Task unit :=
  match pdfBytes s with
  | None => ret tt
  | Some bytes =>
    setLoading true ;;
    setLoadingText "Deleting page..." ;;
    try_catch_finally
      (newBytes <-
         await (E_removePage bytes index) (removePage bytes index) ;;
       loadPdf newBytes)
      console_error
      (setLoading false)
  end.

(** Lines 112-121: the blob made of [pdfBytes] is offered for download
    under the name [edited_${fileName}]. *)
Definition handleSave (s : State) : Task unit :=
  match pdfBytes s with
  | None => ret tt
  | Some bytes => emit (Download ("edited_" ++ fileName s)%string bytes)
  end.

(** Lines 123-128.  There is no [try]: a rejection leaves the handler. *)
Definition openMetadata (s : State) : Task unit :=
  match pdfBytes s with
  | None => ret tt
  | Some bytes =>
    meta <- await (E_getMetadata bytes) (getMetadata bytes) ;;
    setCurrentMetadata meta ;;
    setMetadataModalOpen true
  end.

(** Lines 130-143. *)
Definition saveMetadata (s : State) (newMeta : PdfMetadata) : Task unit :=
  match pdfBytes s with
  | None => ret tt
  | Some bytes =>
    setMetadataModalOpen false ;;
    setLoading true ;;
    try_catch_finally
      (newBytes <-
         await (E_updateMetadata bytes newMeta)
               (updateMetadata bytes newMeta) ;;
       setPdfBytes newBytes)
      (console_error ;;
       alert "Failed to save metadata")
      (setLoading false)
  end.

(** Lines 145-148. *)
Definition openEditor (index : Z) : Task unit :=
  setSelectedPageIndex index ;;
  setEditorModalOpen true.

(** Lines 150-162. *)
Definition handleApplyFilters (s : State)
    (filters : PageFilter) (border : BorderConfig) : Task unit :=
  match pdfBytes s, selectedPageIndex s with
  | Some bytes, Some index =>
    setLoading true ;;
    setLoadingText "Applying edits..." ;;
    try_catch
      (newBytes <-
         await (E_applyFiltersToPage bytes index filters border)
               (applyFiltersToPage bytes index filters border) ;;
       loadPdf newBytes)
      (console_error ;;
       alert "Failed to apply changes" ;;
       setLoading false)
  | _, _ => ret tt
  end.

(** Lines 164-176. *)
Definition handleAddText (s : State) (config : TextConfig) : Task unit :=
  match pdfBytes s, selectedPageIndex s with
  | Some bytes, Some index =>
    setLoading true ;;
    setLoadingText "Adding text..." ;;
    try_catch
      (newBytes <-
         await (E_addTextToPage bytes index config)
               (addTextToPage bytes index config) ;;
       loadPdf newBytes)
      (console_error ;;
       alert "Failed to add text" ;;
       setLoading false)
  | _, _ => ret tt
  end.

End Handlers.

(** ** Playing steps on the state *)

Section Semantics.

Context {T : Types} {Engine : PdfUtils}.

(** One step.  Only the setters touch the state. *)
Definition step (s : State) (e : Step) : State :=
  match e with
  | SetPdfBytes bytes =>
      mkState (Some bytes) (fileName s) (pages s) (loading s)
        (loadingText s) (metadataModalOpen s) (editorModalOpen s)
        (currentMetadata s) (selectedPageIndex s)
  | SetFileName n =>
      mkState (pdfBytes s) n (pages s) (loading s)
        (loadingText s) (metadataModalOpen s) (editorModalOpen s)
        (currentMetadata s) (selectedPageIndex s)
  | SetPages t =>
      mkState (pdfBytes s) (fileName s) t (loading s)
        (loadingText s) (metadataModalOpen s) (editorModalOpen s)
        (currentMetadata s) (selectedPageIndex s)
  | SetLoading b =>
      mkState (pdfBytes s) (fileName s) (pages s) b
        (loadingText s) (metadataModalOpen s) (editorModalOpen s)
        (currentMetadata s) (selectedPageIndex s)
  | SetLoadingText t =>
      mkState (pdfBytes s) (fileName s) (pages s) (loading s)
        t (metadataModalOpen s) (editorModalOpen s)
        (currentMetadata s) (selectedPageIndex s)
  | SetMetadataModalOpen b =>
      mkState (pdfBytes s) (fileName s) (pages s) (loading s)
        (loadingText s) b (editorModalOpen s)
        (currentMetadata s) (selectedPageIndex s)
  | SetEditorModalOpen b =>
      mkState (pdfBytes s) (fileName s) (pages s) (loading s)
        (loadingText s) (metadataModalOpen s) b
        (currentMetadata s) (selectedPageIndex s)
  | SetCurrentMetadata m =>
      mkState (pdfBytes s) (fileName s) (pages s) (loading s)
        (loadingText s) (metadataModalOpen s) (editorModalOpen s)
        (Some m) (selectedPageIndex s)
  | SetSelectedPageIndex i =>
      mkState (pdfBytes s) (fileName s) (pages s) (loading s)
        (loadingText s) (metadataModalOpen s) (editorModalOpen s)
        (currentMetadata s) (Some i)
  | ConsoleError | Alert _ | Download _ _ | ReadFile _ | Await _ => s
  end.

(** A whole sequence of steps, with nothing else in between. *)
Definition run (s : State) (l : list Step) : State := fold_left step l s.

(** The steps at which a handler suspends and the event loop runs: the
    file read and the engine calls.  ([await loadPdf(...)] waits for a
    function of the component itself, which has done all its steps by
    then.) *)
Definition suspends (e : Step) : bool :=
  match e with
  | ReadFile _ | Await _ => true
  | _ => false
  end.

(** The states React gets to render while [l] is played from [s]: the
    state at each suspension, and the state at the end. *)
Fixpoint renders (s : State) (l : list Step) : list State :=
  match l with
  | [] => [s]
  | e :: l' =>
      if suspends e then step s e :: renders (step s e) l'
      else renders (step s e) l'
  end.

(** What the user and the engine get to see of a sequence of steps. *)
Definition alerts (l : list Step) : list string :=
  flat_map (fun e => match e with Alert msg => [msg] | _ => [] end) l.

Definition engineCalls (l : list Step) : list EngineCall :=
  flat_map (fun e => match e with Await c => [c] | _ => [] end) l.

Definition statusLabels (l : list Step) : list string :=
  flat_map (fun e => match e with SetLoadingText t => [t] | _ => [] end) l.

(** ** The operations, as the user fires them one after the other *)

Inductive Operation :=
| Load (bytes : Uint8Array)
| Upload (file : File)
| MergeWith (file : File)
| Reorder (from to : Z)
| Delete (index : Z)
| SetMetadata (newMeta : PdfMetadata)
| ApplyFilters (filters : PageFilter) (border : BorderConfig)
| AddText (config : TextConfig).

(** The handler behind each operation, closed over the state [s] of the
    render in which it is fired. *)
Definition dispatch (s : State) (op : Operation) : Task unit :=
  match op with
  | Load bytes => loadPdf bytes
  | Upload file => handleFileUpload file
  | MergeWith file => handleMerge s file
  | Reorder from to => handleMovePage s from to
  | Delete index => handleDeletePage s index
  | SetMetadata newMeta => saveMetadata s newMeta
  | ApplyFilters filters border => handleApplyFilters s filters border
  | AddText config => handleAddText s config
  end.

(** The state once the operation has settled. *)
Definition perform (s : State) (op : Operation) : State :=
  run s (steps (dispatch s op)).

(** A session: operations fired one after the other, each once the one
    before has settled, each from the render it finds. *)
Definition session (s : State) (ops : list Operation) : State :=
  fold_left perform ops s.

(** ** Two handlers in flight at once

    A handler runs without interruption between two suspensions.
    [chunks] cuts a sequence of steps after each suspension, and
    [Interleaving a b m] says that [m] plays the chunks of [a] and of [b],
    each in its own order, in some order. *)
Fixpoint chunks (l : list Step) : list (list Step) :=
  match l with
  | [] => [[]]
  | e :: l' =>
      if suspends e then [e] :: chunks l'
      else match chunks l' with
           | c :: cs => (e :: c) :: cs
           | [] => [[e]]
           end
  end.

Inductive Interleaving {A} : list A -> list A -> list A -> Prop :=
| il_nil : Interleaving [] [] []
| il_left c a b m : Interleaving a b m -> Interleaving (c :: a) b (c :: m)
| il_right c a b m : Interleaving a b m -> Interleaving a (c :: b) (c :: m).

(** The thumbnails are those of the current document. *)
Definition inSync (s : State) : Prop :=
  match pdfBytes s with
  | Some bytes =>
      exists details,
        getPdfDetails bytes = Some details /\ pages s = thumbnails details
  | None => pages s = []
  end.

(** Modelled from the spec: the page count of a Document, which the
    component never computes.  The Thumbnail Projector "produces exactly
    one thumbnail per page", so it is the number of thumbnails the engine
    renders for the document. *)
Definition pageCountOf (bytes : Uint8Array) : option Z :=
  option_map (fun d => Z.of_nat (List.length (thumbnails d)))
    (getPdfDetails bytes).


(** ** Predicates on steps and tasks *)

(** The steps that set a given variable, and the one that logs. *)
Definition setsSelection (e : Step) : bool :=
  match e with SetSelectedPageIndex _ => true | _ => false end.

Definition setsFileName (e : Step) : bool :=
  match e with SetFileName _ => true | _ => false end.

Definition logsError (e : Step) : bool :=
  match e with ConsoleError => true | _ => false end.

(** Every engine call of [l] is issued with the in-flight flag up. *)
Fixpoint flaggedCalls (s : State) (l : list Step) : bool :=
  match l with
  | [] => true
  | e :: l' =>
      (match e with Await _ => loading s | _ => true end)
      && flaggedCalls (step s e) l'
  end.

(** A handler that returns at once: it performs no step at all (no setter,
    no report, no engine call) and does not throw. *)
Definition silent (t : Task unit) : Prop :=
  steps t = [] /\ outcome t = Some tt.

(** The operations that install their document through [loadPdf]: all
    but set-metadata.  They are also the ones whose handler gives a status
    label. *)
Definition viaLoadPdf (op : Operation) : bool :=
  match op with SetMetadata _ => false | _ => true end.

End Semantics.

(** ** What the component renders, and the events it answers *)

Section Render.

Context {T : Types} {Engine : PdfUtils}.

(** The props of one [PageCard], lines 229-237. *)
Record PageCardProps := mkCard {
  index : Z;
  imageUrl : string;
  total : Z
}.

(** [pages.map((img, idx) => ...)], with [idx] counting from [first]. *)
Fixpoint mapWithIndex {A B} (f : A -> Z -> B) (first : Z) (l : list A)
  : list B :=
  match l with
  | [] => []
  | a :: l' => f a first :: mapWithIndex f (first + 1) l'
  end.

(** [array[i]] for a JavaScript number [i] that is an integer:
    [undefined] ([None]) outside the array. *)
Definition arrayGet {A} (l : list A) (i : Z) : option A :=
  if i <? 0 then None else nth_error l (Z.to_nat i).

(** The [<main>] element, lines 195-241: the landing page, or the grid of
    page cards. *)
Inductive Main :=
| Landing
| Grid (cards : list PageCardProps).

(** The value of [pageImage], line 265: [null], [undefined] or a data
    URL. *)
Inductive PageImage :=
| ImageNull
| ImageUndefined
| ImageUrl (url : string).

(** What [App] returns, lines 178-271, without the styling: the props of
    [Toolbar], the main element, the text of the loading overlay when it
    is shown, and the props of the two modals. *)
Record View := mkView {
  toolbar_hasFile : bool;
  toolbar_fileName : string;
  main : Main;
  overlay : option string;
  metadataModal_isOpen : bool;
  metadataModal_initialMetadata : option PdfMetadata;
  editorModal_isOpen : bool;
  editorModal_pageIndex : option Z;
  editorModal_pageImage : PageImage
}.

Definition render (s : State) : View :=
  mkView
    (match pdfBytes s with Some _ => true | None => false end)
    (fileName s)
    (match pdfBytes s with
     | None => Landing
     | Some _ =>
         Grid (mapWithIndex
                 (fun img idx =>
                    mkCard idx img (Z.of_nat (List.length (pages s))))
                 0 (pages s))
     end)
    (if loading s then Some (loadingText s) else None)
    (metadataModalOpen s)
    (currentMetadata s)
    (editorModalOpen s)
    (selectedPageIndex s)
    (match selectedPageIndex s with
     | Some i =>
         match arrayGet (pages s) i with
         | Some url => ImageUrl url
         | None => ImageUndefined
         end
     | None => ImageNull
     end).

(** The [onClose] of the two modals, lines 257 and 266. *)
Definition closeMetadataModal : Task unit := setMetadataModalOpen false.
Definition closeEditorModal : Task unit := setEditorModalOpen false.

(** Everything the rendered tree can call back. *)
Inductive UserEvent :=
| Fire (op : Operation)
| OpenMetadata
| Save
| OpenEditor (index : Z)
| CloseMetadata
| CloseEditor.

Definition handle (s : State) (ev : UserEvent) : Task unit :=
  match ev with
  | Fire op => dispatch s op
  | OpenMetadata => openMetadata s
  | Save => handleSave s
  | OpenEditor index => openEditor index
  | CloseMetadata => closeMetadataModal
  | CloseEditor => closeEditorModal
  end.

Definition opensEditor (ev : UserEvent) : bool :=
  match ev with OpenEditor _ => true | _ => false end.

(** The state once the handler has settled; a handler that throws has done
    the steps before the throw. *)
Definition react (s : State) (ev : UserEvent) : State :=
  run s (steps (handle s ev)).

Definition interaction (s : State) (evs : list UserEvent) : State :=
  fold_left react evs s.

(** The states at which a handler is suspended: all the renders but the
    last. *)
Definition suspended (s : State) (l : list Step) : list State :=
  removelast (renders s l).

(** The steps a handler runs after its last suspension. *)
Definition lastChunk (l : list Step) : list Step := last (chunks l) [].

Definition setsThumbnails (e : Step) : bool :=
  match e with SetPages _ => true | _ => false end.

Definition setsMetadataModal (e : Step) : bool :=
  match e with SetMetadataModalOpen _ => true | _ => false end.

Definition setsEditorModal (e : Step) : bool :=
  match e with SetEditorModalOpen _ => true | _ => false end.

(** The message each handler alerts in its own [catch]; [handleMovePage]
    and [handleDeletePage] alert none, and [loadPdf] has no step that can
    fail before its projection. *)
Definition ownAlert (op : Operation) : list string :=
  match op with
  | Load _ => []
  | Upload _ => ["Failed to load file"]
  | MergeWith _ => ["Failed to merge PDF"]
  | Reorder _ _ => []
  | Delete _ => []
  | SetMetadata _ => ["Failed to save metadata"]
  | ApplyFilters _ _ => ["Failed to apply changes"]
  | AddText _ => ["Failed to add text"]
  end.

End Render.

(** ** The engine, from the specification

    [src/utils/pdfUtils] is not part of the sources.  Where a property
    depends on what the engine does to the pages, the engine is modelled
    from the specification's table of operations, over any byte layout
    ([parse], [serialize]) of a document made of metadata and a sequence of
    pages. *)

Section SpecEngine.

Variables Meta Page Filter Border Text : Type.

(** How a page looks: its thumbnail, and the two per-page transforms. *)
Variable render : Page -> string.
Variable filterPage : Filter -> Border -> Page -> Page.
Variable textPage : Text -> Page -> Page.

(** The byte layout. *)
Variable parse : Uint8Array -> option (Meta * list Page).
Variable serialize : Meta * list Page -> Uint8Array.

Definition inRange (n : nat) (i : Z) : bool :=
  (0 <=? i) && (i <? Z.of_nat n).

Fixpoint removeAt (i : nat) (ps : list Page) : list Page :=
  match ps, i with
  | [], _ => []
  | _ :: ps', O => ps'
  | p :: ps', S i' => p :: removeAt i' ps'
  end.

Fixpoint insertAt (i : nat) (x : Page) (ps : list Page) : list Page :=
  match i, ps with
  | O, _ => x :: ps
  | S i', p :: ps' => p :: insertAt i' x ps'
  | S _, [] => [x]
  end.

Fixpoint updateAt (i : nat) (f : Page -> Page) (ps : list Page)
  : list Page :=
  match ps, i with
  | [], _ => []
  | p :: ps', O => f p :: ps'
  | p :: ps', S i' => p :: updateAt i' f ps'
  end.

(** Modelled from the spec: the page sequence of "Reorder page", which
    [movePage] of the missing [pdfUtils] computes: "new Document with page
    moved to destination, other pages shifted contiguously". *)
Definition spec_move (from to : nat) (ps : list Page) : list Page :=
  match nth_error ps from with
  | Some p => insertAt to p (removeAt from ps)
  | None => ps
  end.

(** Modelled from the spec: [getPdfDetails] of the missing [pdfUtils],
    the Thumbnail Projector: "exactly one thumbnail per page, in page
    order"; a document that does not parse is a signalled error. *)
Definition spec_getPdfDetails (bytes : Uint8Array) : option PdfDetails :=
  match parse bytes with
  | Some (_, ps) => Some (mkDetails (map render ps))
  | None => None
  end.

(** Modelled from the spec: [movePage] of the missing [pdfUtils]; the
    engine rejects a bad index. *)
Definition spec_movePage (bytes : Uint8Array) (from to : Z)
  : option Uint8Array :=
  match parse bytes with
  | Some (m, ps) =>
      if inRange (List.length ps) from && inRange (List.length ps) to
      then Some (serialize (m, spec_move (Z.to_nat from) (Z.to_nat to) ps))
      else None
  | None => None
  end.

(** Modelled from the spec: [removePage] of the missing [pdfUtils]: "new
    Document with page removed, following pages re-indexed down by one". *)
Definition spec_removePage (bytes : Uint8Array) (index : Z)
  : option Uint8Array :=
  match parse bytes with
  | Some (m, ps) =>
      if inRange (List.length ps) index
      then Some (serialize (m, removeAt (Z.to_nat index) ps))
      else None
  | None => None
  end.

(** Modelled from the spec: [mergePdfs] of the missing [pdfUtils]: "pages
    of first followed by pages of second". *)
Definition spec_mergePdfs (bytes mergeBytes : Uint8Array)
  : option Uint8Array :=
  match parse bytes, parse mergeBytes with
  | Some (m, ps), Some (_, qs) => Some (serialize (m, ps ++ qs))
  | _, _ => None
  end.

(** Modelled from the spec: [getMetadata] of the missing [pdfUtils]:
    "Metadata record (does not mutate Document)". *)
Definition spec_getMetadata (bytes : Uint8Array) : option Meta :=
  match parse bytes with
  | Some (m, _) => Some m
  | None => None
  end.

(** Modelled from the spec: [updateMetadata] of the missing [pdfUtils]:
    "new Document with metadata fields replaced". *)
Definition spec_updateMetadata (bytes : Uint8Array) (newMeta : Meta)
  : option Uint8Array :=
  match parse bytes with
  | Some (_, ps) => Some (serialize (newMeta, ps))
  | None => None
  end.

(** Modelled from the spec: [applyFiltersToPage] of the missing
    [pdfUtils]: "new Document with visual transform baked into that page's
    content". *)
Definition spec_applyFiltersToPage (bytes : Uint8Array) (index : Z)
    (filters : Filter) (border : Border) : option Uint8Array :=
  match parse bytes with
  | Some (m, ps) =>
      if inRange (List.length ps) index
      then Some (serialize
                   (m, updateAt (Z.to_nat index) (filterPage filters border)
                         ps))
      else None
  | None => None
  end.

(** Modelled from the spec: [addTextToPage] of the missing [pdfUtils]:
    "new Document with text overlay baked into that page". *)
Definition spec_addTextToPage (bytes : Uint8Array) (index : Z)
    (config : Text) : option Uint8Array :=
  match parse bytes with
  | Some (m, ps) =>
      if inRange (List.length ps) index
      then Some (serialize
                   (m, updateAt (Z.to_nat index) (textPage config) ps))
      else None
  | None => None
  end.

#[local] Instance specTypes : Types := {|
  PdfMetadata := Meta;
  PageFilter := Filter;
  BorderConfig := Border;
  TextConfig := Text
|}.

#[local] Instance specEngine : PdfUtils := {|
  getPdfDetails := spec_getPdfDetails;
  movePage := spec_movePage;
  removePage := spec_removePage;
  mergePdfs := spec_mergePdfs;
  getMetadata := spec_getMetadata;
  updateMetadata := spec_updateMetadata;
  applyFiltersToPage := spec_applyFiltersToPage;
  addTextToPage := spec_addTextToPage
|}.

End SpecEngine.

(** *** A small instance

    A one-byte header ["%"], one byte of metadata (the title), then one
    byte per page; a page's thumbnail is its byte as a one-character
    string; filters and text overlays leave the byte as it is. *)

Definition demoParse (bytes : Uint8Array)
  : option (Byte.byte * list Byte.byte) :=
  match bytes with
  | Byte.x25 :: title :: ps => Some (title, ps)
  | _ => None
  end.

Definition demoSerialize (d : Byte.byte * list Byte.byte) : Uint8Array :=
  Byte.x25 :: fst d :: snd d.

Definition demoRender (p : Byte.byte) : string :=
  String (ascii_of_byte p) EmptyString.

Definition demoTypes : Types := specTypes Byte.byte unit unit unit.

Definition demoEngine : @PdfUtils demoTypes :=
  specEngine demoRender (fun _ _ p => p) (fun _ p => p)
    demoParse demoSerialize.

(** A document with pages [a], [b], [c], one with page [z], and a file
    that is not a document. *)
Definition docABC : Uint8Array :=
  [Byte.x25; Byte.x54; Byte.x61; Byte.x62; Byte.x63].
Definition docZ : Uint8Array := [Byte.x25; Byte.x54; Byte.x7a].
Definition notAPdf : Uint8Array := [Byte.x00; Byte.x01].

Definition fileABC : File := mkFile "abc.pdf" (Some docABC).
Definition fileZ : File := mkFile "z.pdf" (Some docZ).
Definition fileBad : File := mkFile "bad.pdf" (Some notAPdf).

(** The state after uploading [fileABC] into a fresh component. *)
Definition loadedABC : @State demoTypes :=
  perform (Engine := demoEngine) initialState (Upload fileABC).

Definition docBC : Uint8Array := [Byte.x25; Byte.x54; Byte.x62; Byte.x63].
Definition docAC : Uint8Array := [Byte.x25; Byte.x54; Byte.x61; Byte.x63].
Definition docAB : Uint8Array := [Byte.x25; Byte.x54; Byte.x61; Byte.x62].

Definition newTitle : @PdfMetadata demoTypes := Byte.x55.

(** Two deletes, of page 0 and of page 1, fired from the render of
    [loadedABC], cut at their suspensions. *)
Definition deleteFirst : list (list Step) :=
  chunks (steps (handleDeletePage (Engine := demoEngine) loadedABC 0)).
Definition deleteSecond : list (list Step) :=
  chunks (steps (handleDeletePage (Engine := demoEngine) loadedABC 1)).

(** Both are fired; the removals settle in the order they were asked; the
    thumbnails of the second come before those of the first. *)
Definition raced : list (list Step) :=
  match deleteFirst, deleteSecond with
  | [a1; a2; a3], [b1; b2; b3] => [a1; b1; a2; b2; b3; a3]
  | _, _ => []
  end.

(** A delete of page 0 and a merge with [fileZ], fired from the render of
    [loadedABC].  In [racedThumbnailsLast] the delete installs its document
    after the merge has installed its own, and the thumbnails of the merge
    arrive last; in [racedDocumentLast] it is the other way round. *)
Definition mergeZ : list (list Step) :=
  chunks (steps (handleMerge (Engine := demoEngine) loadedABC fileZ)).

Definition racedThumbnailsLast : list (list Step) :=
  match deleteFirst, mergeZ with
  | [a1; a2; a3], [b1; b2; b3; b4] => [b1; b2; a1; b3; a2; a3; b4]
  | _, _ => []
  end.

Definition racedDocumentLast : list (list Step) :=
  match deleteFirst, mergeZ with
  | [a1; a2; a3], [b1; b2; b3; b4] => [a1; a2; b1; b2; b3; b4; a3]
  | _, _ => []
  end.

(** The states the two races settle in: a two-page document under four
    thumbnails, and a four-page document under two. *)
Definition fewPagesManyThumbnails : @State demoTypes :=
  run loadedABC (List.concat racedThumbnailsLast).

Definition manyPagesFewThumbnails : @State demoTypes :=
  run loadedABC (List.concat racedDocumentLast).

(** The session in which the second upload is not a PDF. *)
Definition afterBadUpload : @State demoTypes :=
  session (Engine := demoEngine) initialState
    [Upload fileABC; Upload fileBad].

(** The session in which a merge has failed. *)
Definition afterBadMerge : @State demoTypes :=
  session (Engine := demoEngine) initialState
    [Upload fileABC; MergeWith fileBad].

(** [loadedABC] while some operation is in flight. *)
Definition busyABC : @State demoTypes :=
  run loadedABC [SetLoading true; SetLoadingText "Merging PDFs..."].

(** The merged document, and what the user does in a short visit. *)
Definition docABCZ : Uint8Array :=
  [Byte.x25; Byte.x54; Byte.x61; Byte.x62; Byte.x63; Byte.x7a].

Definition visit : list (@UserEvent demoTypes) :=
  [Fire (Upload fileABC); OpenEditor 2; Fire (Delete 2);
   Fire (ApplyFilters (T := demoTypes) tt tt); OpenMetadata; CloseEditor].

(** ** Playing steps: general facts *)

Section Facts.

Context {T : Types} {Engine : PdfUtils}.

Lemma run_app (s : State) (l1 l2 : list Step) :
  run s (l1 ++ l2) = run (run s l1) l2.
Proof. unfold run. apply fold_left_app. Qed.

Lemma run_cons (s : State) (e : Step) (l : list Step) :
  run s (e :: l) = run (step s e) l.
Proof. reflexivity. Qed.



(** The current document after a sequence of steps is the last one
    installed, or the one before if none was. *)
Lemma pdfBytes_run (l : list Step) (s : State) :
  (pdfBytes (run s l) = pdfBytes s /\
   forall b, ~ In (SetPdfBytes b) l) \/
  (exists b, In (SetPdfBytes b) l /\ pdfBytes (run s l) = Some b).
Proof.
  revert s. induction l as [|e l IH]; intro s.
  - left. split; [reflexivity|]. intros b [].
  - rewrite run_cons. destruct (IH (step s e)) as [[Heq Hno]|[b [Hin Heq]]].
    + destruct e;
        try (left; split;
             [ rewrite Heq; reflexivity
             | intros x [Hx|Hx]; [discriminate Hx | exact (Hno x Hx)] ]).
      right. exists bytes. split; [now left|]. rewrite Heq. reflexivity.
    + right. exists b. split; [now right | exact Heq].
Qed.


Lemma run_keeps_selection (l : list Step) (s : State) :
  existsb setsSelection l = false ->
  selectedPageIndex (run s l) = selectedPageIndex s.
Proof.
  revert s. induction l as [|e l IH]; intros s H; [reflexivity|].
  simpl in H. apply orb_false_iff in H as [He Hl].
  rewrite run_cons, (IH _ Hl). now destruct e.
Qed.

Lemma flaggedCalls_spec (l : list Step) (s : State) :
  flaggedCalls s l = true ->
  forall pre c post, l = pre ++ Await c :: post ->
    loading (run s pre) = true.
Proof.
  revert s. induction l as [|e l IH]; intros s H pre c post Heq.
  - now destruct pre.
  - simpl in H. apply andb_true_iff in H as [He Hl].
    destruct pre as [|e' pre]; simpl in Heq; inversion Heq; subst.
    + exact He.
    + rewrite run_cons. eapply IH; eauto.
Qed.

End Facts.

(** Case analysis on everything a handler branches on: the variables it
    closes over and the way each awaited promise settles. *)
Ltac handler_cases :=
  repeat match goal with
         | |- context [match ?x with _ => _ end] =>
             lazymatch x with
             | context [match _ with _ => _ end] => fail
             | _ => destruct x eqn:?
             end; cbn
         end.

Ltac unfold_handlers :=
  unfold perform, dispatch, handleFileUpload, handleMerge, handleMovePage,
    handleDeletePage, handleSave, openMetadata, saveMetadata, openEditor,
    handleApplyFilters, handleAddText, loadPdf, try_catch_finally,
    try_finally, try_catch, await, await_arrayBuffer, setPdfBytes,
    setFileName, setPages, setLoading, setLoadingText,
    setMetadataModalOpen, setEditorModalOpen, setCurrentMetadata,
    setSelectedPageIndex, console_error, alert, emit, bind, ret, steps,
    outcome; cbn.

(** ** What the handlers do, for any engine *)

Section Handlers_facts.

Context {T : Types} {Engine : PdfUtils}.

Lemma silent_nothing_happens (s : State) (t : Task unit) :
  silent t ->
  run s (steps t) = s /\ renders s (steps t) = [s] /\
  engineCalls (steps t) = [] /\ alerts (steps t) = [].
Proof. intros [H _]. rewrite H. repeat split. Qed.

(** In sync, the thumbnail count is the page count of the document. *)
Lemma inSync_pageCount (s : State) (bytes : Uint8Array) (n : Z) :
  pdfBytes s = Some bytes -> inSync s -> pageCountOf bytes = Some n ->
  Z.of_nat (List.length (pages s)) = n.
Proof.
  unfold inSync, pageCountOf. intros Hb Hs Hn. rewrite Hb in Hs.
  destruct Hs as [d [Hd Hp]]. rewrite Hd in Hn. simpl in Hn.
  inversion Hn. now rewrite Hp.
Qed.

(** The guard of [handleMovePage], line 84. *)
Lemma handleMovePage_guard (s : State) (from to : Z) :
  to < 0 \/ Z.of_nat (List.length (pages s)) <= to ->
  handleMovePage s from to = ret tt.
Proof.
  intros H. unfold handleMovePage. destruct (pdfBytes s); [|reflexivity].
  replace ((to <? 0) || (to >=? Z.of_nat (List.length (pages s))))
    with true; [reflexivity|].
  symmetry. apply orb_true_iff. destruct H as [H|H].
  - left. now apply Z.ltb_lt.
  - right. rewrite Z.geb_leb. now apply Z.leb_le.
Qed.

Lemma handleMovePage_calls (s : State) (bytes : Uint8Array) (from to : Z) :
  pdfBytes s = Some bytes ->
  0 <= to < Z.of_nat (List.length (pages s)) ->
  exists rest,
    steps (handleMovePage s from to) =
    SetLoading true :: SetLoadingText "Reordering..."
      :: Await (E_movePage bytes from to) :: rest.
Proof.
  intros Hb [H0 H1]. unfold handleMovePage. rewrite Hb.
  replace ((to <? 0) || (to >=? Z.of_nat (List.length (pages s))))
    with false.
  - unfold_handlers. handler_cases; eexists; reflexivity.
  - symmetry. apply orb_false_iff. split.
    + now apply Z.ltb_ge.
    + rewrite Z.geb_leb. apply Z.leb_gt. lia.
Qed.

(** No handler behind an operation sets the selected page. *)
Lemma dispatch_never_selects (s : State) (op : Operation) :
  existsb setsSelection (steps (dispatch s op)) = false.
Proof.
  destruct op; unfold_handlers; handler_cases; reflexivity.
Qed.

Lemma perform_keeps_selection (s : State) (op : Operation) :
  selectedPageIndex (perform s op) = selectedPageIndex s.
Proof. apply run_keeps_selection, dispatch_never_selects. Qed.

Lemma session_keeps_selection (ops : list Operation) (s : State) :
  selectedPageIndex (session s ops) = selectedPageIndex s.
Proof.
  revert s. induction ops as [|op ops IH]; intro s; [reflexivity|].
  unfold session in *. simpl. rewrite IH. apply perform_keeps_selection.
Qed.

(** The file name is that of the last upload: no other operation sets
    it. *)
Lemma perform_keeps_fileName (s : State) (op : Operation) :
  (forall file, op <> Upload file) ->
  fileName (perform s op) = fileName s.
Proof.
  intros Hop.
  assert (H : existsb setsFileName (steps (dispatch s op)) = false).
  { destruct op; try (now elim (Hop file));
      unfold_handlers; handler_cases; reflexivity. }
  unfold perform. revert H. generalize (steps (dispatch s op)) as l.
  intros l. revert s. induction l as [|e l IH]; intros s H; [reflexivity|].
  simpl in H. apply orb_false_iff in H as [He Hl].
  rewrite run_cons, (IH _ Hl). now destruct e.
Qed.

Lemma handleFileUpload_sets_fileName (s : State) (file : File)
    (bytes : Uint8Array) :
  arrayBuffer file = Some bytes ->
  fileName (perform s (Upload file)) = name file.
Proof.
  intros H. unfold_handlers. rewrite H. cbn. handler_cases; reflexivity.
Qed.

(** Every engine call of an operation is issued with the flag up, and the
    flag is down once an operation that did anything has settled. *)
Lemma dispatch_flags_calls (s : State) (op : Operation) :
  flaggedCalls s (steps (dispatch s op)) = true.
Proof.
  destruct op; unfold_handlers; handler_cases; reflexivity.
Qed.

Lemma perform_clears_flag (s : State) (op : Operation) :
  steps (dispatch s op) <> [] -> loading (perform s op) = false.
Proof.
  destruct op; unfold_handlers; handler_cases;
    solve [reflexivity | intros H; now elim H].
Qed.

(** [saveMetadata] is the one handler that gives no status label, and the
    one that installs a document without asking for its thumbnails. *)
Lemma saveMetadata_no_label (s : State) (newMeta : PdfMetadata) :
  statusLabels (steps (saveMetadata s newMeta)) = [].
Proof. unfold_handlers. handler_cases; reflexivity. Qed.

Lemma saveMetadata_keeps_pages (s : State) (newMeta : PdfMetadata) :
  pages (perform s (SetMetadata newMeta)) = pages s /\
  forall bytes,
    ~ In (E_getPdfDetails bytes) (engineCalls (steps (saveMetadata s newMeta))).
Proof.
  unfold_handlers. handler_cases; split; try reflexivity;
    intros b; simpl; intuition discriminate.
Qed.

Lemma dispatch_labels (s : State) (op : Operation) :
  viaLoadPdf op = true -> steps (dispatch s op) <> [] ->
  exists label rest,
    steps (dispatch s op) = SetLoading true :: SetLoadingText label :: rest.
Proof.
  destruct op; try discriminate; intros _; unfold_handlers; handler_cases;
    intros H; try (now elim H); do 2 eexists; reflexivity.
Qed.

(** [loadPdf] installs the document first and asks for the thumbnails
    next: if they come, the two are in sync at the end; if they do not,
    the new document stays with the thumbnails of the old one. *)
Lemma loadPdf_success (s : State) (bytes : Uint8Array) (d : PdfDetails) :
  getPdfDetails bytes = Some d ->
  pdfBytes (perform s (Load bytes)) = Some bytes /\
  pages (perform s (Load bytes)) = thumbnails d /\
  loading (perform s (Load bytes)) = false /\
  alerts (steps (loadPdf bytes)) = [].
Proof. intros H. unfold_handlers. rewrite H. cbn. repeat split. Qed.

Lemma loadPdf_failure (s : State) (bytes : Uint8Array) :
  getPdfDetails bytes = None ->
  pdfBytes (perform s (Load bytes)) = Some bytes /\
  pages (perform s (Load bytes)) = pages s /\
  loading (perform s (Load bytes)) = false /\
  alerts (steps (loadPdf bytes)) = ["Error loading PDF"].
Proof. intros H. unfold_handlers. rewrite H. cbn. repeat split. Qed.

(** While [loadPdf] waits for the thumbnails, React renders the new
    document with the thumbnails of the old one. *)
Lemma loadPdf_renders_mixed (s : State) (bytes : Uint8Array) :
  exists st rest,
    renders s (steps (loadPdf bytes)) = st :: rest /\
    pdfBytes st = Some bytes /\ pages st = pages s.
Proof.
  unfold_handlers. handler_cases; do 2 eexists; repeat split.
Qed.

(** A failed reorder or delete is logged and nothing else: no alert. *)
Lemma handleDeletePage_failure (s : State) (bytes : Uint8Array) (index : Z) :
  pdfBytes s = Some bytes -> removePage bytes index = None ->
  steps (handleDeletePage s index) =
  [SetLoading true; SetLoadingText "Deleting page...";
   Await (E_removePage bytes index); ConsoleError; SetLoading false].
Proof. intros Hb H. unfold_handlers. rewrite Hb. cbn. now rewrite H. Qed.

Lemma handleMovePage_failure (s : State) (bytes : Uint8Array) (from to : Z) :
  pdfBytes s = Some bytes ->
  0 <= to < Z.of_nat (List.length (pages s)) ->
  movePage bytes from to = None ->
  steps (handleMovePage s from to) =
  [SetLoading true; SetLoadingText "Reordering...";
   Await (E_movePage bytes from to); ConsoleError; SetLoading false].
Proof.
  intros Hb [H0 H1] H. unfold handleMovePage. rewrite Hb.
  replace ((to <? 0) || (to >=? Z.of_nat (List.length (pages s))))
    with false.
  - unfold_handlers. now rewrite H.
  - symmetry. apply orb_false_iff. split.
    + now apply Z.ltb_ge.
    + rewrite Z.geb_leb. apply Z.leb_gt. lia.
Qed.

(** The other handlers, when their own engine call rejects: the document
    and the thumbnails stay, one alert is shown, the flag is cleared. *)
Lemma handleMerge_failure (s : State) (bytes mergeBytes : Uint8Array)
    (file : File) :
  pdfBytes s = Some bytes -> arrayBuffer file = Some mergeBytes ->
  mergePdfs bytes mergeBytes = None ->
  pdfBytes (perform s (MergeWith file)) = Some bytes /\
  pages (perform s (MergeWith file)) = pages s /\
  loading (perform s (MergeWith file)) = false /\
  alerts (steps (handleMerge s file)) = ["Failed to merge PDF"].
Proof.
  intros Hb Hf H. unfold_handlers. rewrite Hb. cbn. rewrite Hf. cbn.
  rewrite H. cbn. repeat split. exact Hb.
Qed.

Lemma saveMetadata_failure (s : State) (bytes : Uint8Array)
    (newMeta : PdfMetadata) :
  pdfBytes s = Some bytes -> updateMetadata bytes newMeta = None ->
  pdfBytes (perform s (SetMetadata newMeta)) = Some bytes /\
  pages (perform s (SetMetadata newMeta)) = pages s /\
  loading (perform s (SetMetadata newMeta)) = false /\
  alerts (steps (saveMetadata s newMeta)) = ["Failed to save metadata"].
Proof.
  intros Hb H. unfold_handlers. rewrite Hb. cbn. rewrite H. cbn.
  repeat split. exact Hb.
Qed.

Lemma handleApplyFilters_failure (s : State) (bytes : Uint8Array)
    (index : Z) (filters : PageFilter) (border : BorderConfig) :
  pdfBytes s = Some bytes -> selectedPageIndex s = Some index ->
  applyFiltersToPage bytes index filters border = None ->
  pdfBytes (perform s (ApplyFilters filters border)) = Some bytes /\
  pages (perform s (ApplyFilters filters border)) = pages s /\
  loading (perform s (ApplyFilters filters border)) = false /\
  alerts (steps (handleApplyFilters s filters border)) =
    ["Failed to apply changes"].
Proof.
  intros Hb Hi H. unfold_handlers. rewrite Hb, Hi. cbn. rewrite H. cbn.
  repeat split. exact Hb.
Qed.

Lemma handleAddText_failure (s : State) (bytes : Uint8Array)
    (index : Z) (config : TextConfig) :
  pdfBytes s = Some bytes -> selectedPageIndex s = Some index ->
  addTextToPage bytes index config = None ->
  pdfBytes (perform s (AddText config)) = Some bytes /\
  pages (perform s (AddText config)) = pages s /\
  loading (perform s (AddText config)) = false /\
  alerts (steps (handleAddText s config)) = ["Failed to add text"].
Proof.
  intros Hb Hi H. unfold_handlers. rewrite Hb, Hi. cbn. rewrite H. cbn.
  repeat split. exact Hb.
Qed.

End Handlers_facts.

Section Settled.

Context {T : Types} {Engine : PdfUtils}.

(** Every handler logs the error it catches.  An operation other than
    set-metadata that did something and logged no error ends with the
    thumbnails of the document it installed. *)
Lemma settled_inSync (s : State) (op : Operation) :
  viaLoadPdf op = true ->
  steps (dispatch s op) <> [] ->
  existsb logsError (steps (dispatch s op)) = false ->
  inSync (perform s op) /\
  exists bytes,
    pdfBytes (perform s op) = Some bytes /\
    pageCountOf bytes =
      Some (Z.of_nat (List.length (pages (perform s op)))).
Proof.
  unfold inSync, pageCountOf.
  destruct op; try discriminate; intros _; unfold_handlers; handler_cases;
    intros Hne Hlog; try discriminate Hlog; try (now elim Hne);
    (split; [eexists; split; [eassumption|reflexivity]|]);
    eexists; (split; [reflexivity|]);
    match goal with H : getPdfDetails _ = Some _ |- _ => rewrite H end;
    reflexivity.
Qed.



End Settled.

(** ** The claims that hold for any engine *)

Section Claims.

Context {T : Types} {Engine : PdfUtils}.


(** C4, as amended.  A reorder whose destination is outside
    [0, pages.length) -- the number of thumbnails shown -- returns at once,
    whatever the state: it performs no step (the flag is not set, the
    engine is not called, nothing is reported), it does not throw, and the
    state is what it was. *)
Theorem reorder_outside_thumbnails_is_noop (s : State) (from to : Z) :
  to < 0 \/ Z.of_nat (List.length (pages s)) <= to ->
  silent (handleMovePage s from to) /\
  perform s (Reorder from to) = s.
Proof.
  intros Hto. unfold perform, dispatch.
  rewrite (handleMovePage_guard s from Hto). repeat split.
Qed.

(** When the thumbnails are those of the document, that bound is the page
    count of the document. *)
Corollary reorder_out_of_range_in_sync
    (s : State) (bytes : Uint8Array) (n from to : Z) :
  pdfBytes s = Some bytes -> inSync s -> pageCountOf bytes = Some n ->
  to < 0 \/ n <= to ->
  silent (handleMovePage s from to) /\
  perform s (Reorder from to) = s.
Proof.
  intros Hb Hs Hn Hto.
  rewrite <- (inSync_pageCount s Hb Hs Hn) in Hto.
  unfold perform, dispatch. rewrite (handleMovePage_guard s from Hto).
  repeat split.
Qed.

(** C7.  With no document loaded, merge, reorder, delete, get-metadata,
    set-metadata, apply-filters, add-text and export all return at once:
    no step is performed and nothing is thrown. *)
Theorem no_document_no_op
    (s : State) (file : File) (from to index : Z) (newMeta : PdfMetadata)
    (filters : PageFilter) (border : BorderConfig) (config : TextConfig) :
  pdfBytes s = None ->
  silent (handleMerge s file) /\
  silent (handleMovePage s from to) /\
  silent (handleDeletePage s index) /\
  silent (openMetadata s) /\
  silent (saveMetadata s newMeta) /\
  silent (handleApplyFilters s filters border) /\
  silent (handleAddText s config) /\
  silent (handleSave s).
Proof.
  intros H. unfold silent, handleMerge, handleMovePage, handleDeletePage,
    openMetadata, saveMetadata, handleApplyFilters, handleAddText,
    handleSave.
  rewrite H. repeat split.
Qed.

(** C8.  With a document loaded, export performs exactly one step: it
    offers the current bytes for download under the name
    [edited_<fileName>].  The state -- the document, the thumbnails, the
    file name, the flag and everything else -- is what it was. *)
Theorem export_downloads_and_keeps_state (s : State) (bytes : Uint8Array) :
  pdfBytes s = Some bytes ->
  handleSave s =
    ([Download ("edited_" ++ fileName s)%string bytes], Some tt) /\
  run s (steps (handleSave s)) = s /\
  renders s (steps (handleSave s)) = [s].
Proof.
  intros H. unfold handleSave. rewrite H. cbn.
  destruct s; repeat split.
Qed.

(** C9, as amended.  With a document loaded, a reorder whose destination
    is within [0, pages.length) -- the number of thumbnails shown -- raises
    the flag, gives its label and calls [movePage] with the source index it
    was given, whatever that index is. *)
Theorem reorder_within_thumbnails_calls_engine
    (s : State) (bytes : Uint8Array) (from to : Z) :
  pdfBytes s = Some bytes ->
  0 <= to < Z.of_nat (List.length (pages s)) ->
  exists rest,
    steps (handleMovePage s from to) =
    SetLoading true :: SetLoadingText "Reordering..."
      :: Await (E_movePage bytes from to) :: rest.
Proof.
  intros Hb Hto. now apply handleMovePage_calls.
Qed.

(** When the thumbnails are those of the document, that bound is the page
    count of the document. *)
Corollary reorder_checks_destination_in_sync
    (s : State) (bytes : Uint8Array) (n from to : Z) :
  pdfBytes s = Some bytes -> inSync s -> pageCountOf bytes = Some n ->
  0 <= to < n ->
  exists rest,
    steps (handleMovePage s from to) =
    SetLoading true :: SetLoadingText "Reordering..."
      :: Await (E_movePage bytes from to) :: rest.
Proof.
  intros Hb Hs Hn Hto.
  rewrite <- (inSync_pageCount s Hb Hs Hn) in Hto.
  now apply handleMovePage_calls.
Qed.

(** C10.  Once the editor has been opened on index [i], no sequence of
    operations changes the selected index: it is [i] at the end, and
    apply-filters and add-text fired then call the engine with the document
    current at that time and the index [i]. *)
Theorem selection_survives_mutations
    (s : State) (i : Z) (ops : list Operation)
    (filters : PageFilter) (border : BorderConfig) (config : TextConfig) :
  let s' := session (run s (steps (openEditor i))) ops in
  selectedPageIndex s' = Some i /\
  match pdfBytes s' with
  | Some bytes =>
      (exists rest,
         steps (handleApplyFilters s' filters border) =
         SetLoading true :: SetLoadingText "Applying edits..."
           :: Await (E_applyFiltersToPage bytes i filters border) :: rest) /\
      (exists rest,
         steps (handleAddText s' config) =
         SetLoading true :: SetLoadingText "Adding text..."
           :: Await (E_addTextToPage bytes i config) :: rest)
  | None =>
      silent (handleApplyFilters s' filters border) /\
      silent (handleAddText s' config)
  end.
Proof.
  intros s'.
  assert (Hsel : selectedPageIndex s' = Some i).
  { unfold s'. rewrite session_keeps_selection. reflexivity. }
  split; [exact Hsel|].
  unfold handleApplyFilters, handleAddText. rewrite Hsel.
  destruct (pdfBytes s') as [bytes|].
  - split; unfold_handlers; handler_cases; eexists; reflexivity.
  - repeat split.
Qed.

End Claims.

(** ** The operations on the engine of the specification *)

Section On_spec_engine.

Variables Meta Page Filter Border Text : Type.
Variable render : Page -> string.
Variable filterPage : Filter -> Border -> Page -> Page.
Variable textPage : Text -> Page -> Page.
Variable parse : Uint8Array -> option (Meta * list Page).
Variable serialize : Meta * list Page -> Uint8Array.

(** What is serialized parses back. *)
Hypothesis parse_serialize : forall d, parse (serialize d) = Some d.

Lemma insertAt_removeAt (ps : list Page) (i : nat) (p : Page) :
  nth_error ps i = Some p -> insertAt i p (removeAt i ps) = ps.
Proof.
  revert i. induction ps as [|q ps IH]; intros [|i] H; simpl in *;
    try discriminate.
  - now inversion H.
  - destruct ps as [|r ps'].
    + now destruct i.
    + f_equal. now apply IH.
Qed.

Lemma spec_move_same (ps : list Page) (i : nat) : spec_move i i ps = ps.
Proof.
  unfold spec_move. destruct (nth_error ps i) eqn:H; [|reflexivity].
  now apply insertAt_removeAt.
Qed.

Lemma spec_movePage_same (bytes : Uint8Array) (m : Meta) (ps : list Page)
    (i : Z) :
  parse bytes = Some (m, ps) -> 0 <= i < Z.of_nat (List.length ps) ->
  spec_movePage parse serialize bytes i i = Some (serialize (m, ps)).
Proof.
  intros Hp [H0 H1]. unfold spec_movePage, inRange. rewrite Hp.
  replace (0 <=? i) with true by (symmetry; now apply Z.leb_le).
  replace (i <? Z.of_nat (List.length ps)) with true
    by (symmetry; now apply Z.ltb_lt).
  simpl. now rewrite spec_move_same.
Qed.

(** A removal on the engine of the specification takes one page away and
    leaves the others in order. *)
Lemma removeAt_length (ps : list Page) (i : nat) :
  (i < List.length ps)%nat ->
  S (List.length (removeAt i ps)) = List.length ps.
Proof.
  revert i. induction ps as [|p ps IH]; intros [|i] H; simpl in *;
    try lia.
  rewrite IH; [reflexivity|lia].
Qed.

Lemma spec_removePage_pages (bytes d : Uint8Array) (m : Meta)
    (ps : list Page) (i : Z) :
  parse bytes = Some (m, ps) ->
  spec_removePage parse serialize bytes i = Some d ->
  parse d = Some (m, removeAt (Z.to_nat i) ps) /\
  S (List.length (removeAt (Z.to_nat i) ps)) = List.length ps.
Proof.
  unfold spec_removePage, inRange. intros Hp H. rewrite Hp in H.
  destruct ((0 <=? i) && (i <? Z.of_nat (List.length ps))) eqn:E;
    [|discriminate H].
  apply andb_true_iff in E as [E0 E1].
  apply Z.leb_le in E0. apply Z.ltb_lt in E1.
  inversion H; subst. split; [apply parse_serialize|].
  apply removeAt_length. lia.
Qed.

(** C6.  On the engine of the specification, with a document loaded and
    its thumbnails shown, reorder with [from = to = i] for [i] within
    [0, pageCount) installs a document that parses to the same metadata and
    the same pages in the same order, and shows the same thumbnails. *)
Theorem reorder_same_index_keeps_page_order
    (s : @State (specTypes Meta Filter Border Text))
    (bytes : Uint8Array) (m : Meta) (ps : list Page) (i : Z) :
  pdfBytes s = Some bytes ->
  parse bytes = Some (m, ps) ->
  pages s = map render ps ->
  0 <= i < Z.of_nat (List.length ps) ->
  let s' :=
    perform (Engine := specEngine render filterPage textPage parse serialize)
      s (Reorder i i) in
  exists newBytes,
    pdfBytes s' = Some newBytes /\
    parse newBytes = Some (m, ps) /\
    pages s' = pages s.
Proof.
  intros Hb Hp Hs [H0 H1] s'. subst s'.
  exists (serialize (m, ps)).
  unfold perform, dispatch, handleMovePage. rewrite Hb, Hs, length_map.
  replace ((i <? 0) || (i >=? Z.of_nat (List.length ps))) with false.
  - unfold_handlers.
    rewrite (@spec_movePage_same bytes m ps i Hp (conj H0 H1)). cbn.
    unfold spec_getPdfDetails. rewrite parse_serialize. cbn.
    repeat split.
  - symmetry. apply orb_false_iff. split.
    + now apply Z.ltb_ge.
    + rewrite Z.geb_leb. apply Z.leb_gt. lia.
Qed.

End On_spec_engine.

(** ** The handlers on the small instance *)

Section Demo.

#[local] Existing Instance demoTypes.
#[local] Existing Instance demoEngine.

Lemma demo_parse_serialize (d : Byte.byte * list Byte.byte) :
  demoParse (demoSerialize d) = Some d.
Proof. now destruct d. Qed.

Lemma loadedABC_inSync : inSync loadedABC.
Proof. eexists. split; reflexivity. Qed.


(** C1.  Two failures on the small instance.  Uploading a file that is not
    a PDF over a loaded document: [getPdfDetails] rejects, the alert is
    shown and the flag is cleared, but the current document is now the
    file that failed to load, under the thumbnails of the document it
    replaced.  Deleting a page then: [removePage] rejects, the flag is
    cleared and the document stays, but the error is only logged -- no
    alert is shown. *)
Theorem failures_replace_document_or_stay_silent :
  pdfBytes loadedABC = Some docABC /\
  perform loadedABC (Upload fileBad) = afterBadUpload /\
  pdfBytes afterBadUpload = Some notAPdf /\
  pages afterBadUpload = pages loadedABC /\
  alerts (steps (handleFileUpload fileBad)) = ["Error loading PDF"] /\
  steps (handleDeletePage afterBadUpload 0) =
    [SetLoading true; SetLoadingText "Deleting page...";
     Await (E_removePage notAPdf 0); ConsoleError; SetLoading false] /\
  alerts (steps (handleDeletePage afterBadUpload 0)) = [] /\
  pdfBytes (perform afterBadUpload (Delete 0)) = Some notAPdf /\
  loading (perform afterBadUpload (Delete 0)) = false.
Proof. repeat apply conj; vm_compute; reflexivity. Qed.

(** C2.  On the small instance, uploading the one-page [docZ] over the
    three-page [docABC]: at the suspension of [loadPdf] React renders
    [docZ] as the current document with the three thumbnails of [docABC];
    and after the upload of a file that is not a PDF that pairing is the
    settled state.  Setting the metadata installs a new document and asks
    for no thumbnails. *)
Theorem document_installed_before_its_thumbnails :
  (exists st,
     In st (renders loadedABC (steps (handleFileUpload fileZ))) /\
     pdfBytes st = Some docZ /\
     pages st = ["a"; "b"; "c"] /\
     pageCountOf docZ = Some 1) /\
  (pdfBytes afterBadUpload = Some notAPdf /\
   pages afterBadUpload = ["a"; "b"; "c"] /\
   ~ inSync afterBadUpload) /\
  (steps (saveMetadata loadedABC newTitle) =
     [SetMetadataModalOpen false; SetLoading true;
      Await (E_updateMetadata docABC newTitle);
      SetPdfBytes [Byte.x25; Byte.x55; Byte.x61; Byte.x62; Byte.x63];
      SetLoading false]).
Proof.
  split; [|split].
  - eexists. split; [right; left; reflexivity|]. repeat split.
  - repeat split. intros [d [Hd _]]. discriminate Hd.
  - reflexivity.
Qed.

(** C5.  On the small instance, after a merge that failed, setting the
    metadata raises the flag and calls the engine without giving a status
    label: while [updateMetadata] is awaited the overlay still reads
    ["Merging PDFs..."]. *)
Theorem saveMetadata_sets_no_status_label :
  loadingText afterBadMerge = "Merging PDFs..." /\
  steps (saveMetadata afterBadMerge newTitle) =
    [SetMetadataModalOpen false; SetLoading true;
     Await (E_updateMetadata docABC newTitle);
     SetPdfBytes [Byte.x25; Byte.x55; Byte.x61; Byte.x62; Byte.x63];
     SetLoading false] /\
  statusLabels (steps (saveMetadata afterBadMerge newTitle)) = [] /\
  (exists st rest,
     renders afterBadMerge (steps (saveMetadata afterBadMerge newTitle)) =
       st :: rest /\
     loading st = true /\ loadingText st = "Merging PDFs...").
Proof. repeat split. do 2 eexists. repeat split. Qed.

(** The race of [raced]: one deletion in the document, and the thumbnails
    of the other. *)
Example raced_outcome :
  pdfBytes (run loadedABC (List.concat raced)) = Some docAC /\
  pages (run loadedABC (List.concat raced)) = ["b"; "c"].
Proof. split; reflexivity. Qed.

(** The editor opened on the last page, which is then deleted: the
    selection stays, and apply-filters asks the engine for a page that is
    no longer there. *)
Example selection_outlives_its_page :
  let s := session loadedABC [Delete 2] in
  let s' := session (run loadedABC (steps (openEditor 2))) [Delete 2] in
  pdfBytes s' = Some docAB /\
  selectedPageIndex s' = Some 2 /\
  engineCalls (steps (handleApplyFilters s' tt tt)) =
    [E_applyFiltersToPage docAB 2 tt tt] /\
  alerts (steps (handleApplyFilters s' tt tt)) = ["Failed to apply changes"].
Proof. repeat split. Qed.

(** *** The theorems above at concrete inputs *)



Lemma racedThumbnailsLast_interleaves :
  Interleaving deleteFirst mergeZ racedThumbnailsLast.
Proof.
  cbv. apply il_right, il_right, il_left, il_right, il_left, il_left,
    il_right, il_nil.
Qed.

Lemma racedDocumentLast_interleaves :
  Interleaving deleteFirst mergeZ racedDocumentLast.
Proof.
  cbv. apply il_left, il_left, il_right, il_right, il_right, il_right,
    il_left, il_nil.
Qed.

Lemma reorder_outside_thumbnails_is_noop_witness :
  (3 < 0 \/ Z.of_nat (List.length (pages loadedABC)) <= 3) /\
  silent (handleMovePage loadedABC 2 3) /\
  perform loadedABC (Reorder 2 3) = loadedABC.
Proof.
  assert (H : 3 < 0 \/ Z.of_nat (List.length (pages loadedABC)) <= 3)
    by (right; vm_compute; discriminate).
  split; [exact H|].
  exact (@reorder_outside_thumbnails_is_noop demoTypes demoEngine loadedABC
           2 3 H).
Defined.

(** C4, as the claim states it, fails: a delete of page 0 racing with a
    merge leaves the two-page [docBC] under four thumbnails, and there a
    reorder to index 3, outside [0, 2), raises the flag and calls
    [movePage]. *)
Lemma reorder_out_of_range_counterexample :
  Interleaving (chunks (steps (handleDeletePage loadedABC 0)))
               (chunks (steps (handleMerge loadedABC fileZ)))
               racedThumbnailsLast /\
  pdfBytes fewPagesManyThumbnails = Some docBC /\
  pageCountOf docBC = Some 2 /\
  (3 < 0 \/ 2 <= 3) /\
  steps (handleMovePage fewPagesManyThumbnails 0 3) =
    [SetLoading true; SetLoadingText "Reordering...";
     Await (E_movePage docBC 0 3); ConsoleError; SetLoading false] /\
  ~ silent (handleMovePage fewPagesManyThumbnails 0 3) /\
  perform fewPagesManyThumbnails (Reorder 0 3) <> fewPagesManyThumbnails.
Proof.
  split; [exact racedThumbnailsLast_interleaves|].
  split; [reflexivity|]. split; [reflexivity|].
  split; [right; lia|]. split; [reflexivity|]. split.
  - intros [H _]. discriminate H.
  - intros H. apply (f_equal (fun st => loadingText st)) in H.
    vm_compute in H. discriminate H.
Qed.

Lemma reorder_same_index_keeps_page_order_witness :
  (forall d, demoParse (demoSerialize d) = Some d) /\
  pdfBytes loadedABC = Some docABC /\
  demoParse docABC = Some (Byte.x54, [Byte.x61; Byte.x62; Byte.x63]) /\
  pages loadedABC = map demoRender [Byte.x61; Byte.x62; Byte.x63] /\
  0 <= 1 < 3 /\
  exists newBytes,
    pdfBytes (perform loadedABC (Reorder 1 1)) = Some newBytes /\
    demoParse newBytes = Some (Byte.x54, [Byte.x61; Byte.x62; Byte.x63]) /\
    pages (perform loadedABC (Reorder 1 1)) = pages loadedABC.
Proof.
  assert (H : 0 <= 1 < Z.of_nat
                (List.length [Byte.x61; Byte.x62; Byte.x63]))
    by (simpl; lia).
  split; [exact demo_parse_serialize|]. split; [reflexivity|].
  split; [reflexivity|]. split; [reflexivity|]. split; [lia|].
  exact (@reorder_same_index_keeps_page_order Byte.byte Byte.byte unit unit
           unit demoRender (fun _ _ p => p) (fun _ p => p) demoParse
           demoSerialize demo_parse_serialize loadedABC docABC Byte.x54
           [Byte.x61; Byte.x62; Byte.x63] 1 eq_refl eq_refl eq_refl H).
Defined.

Lemma no_document_no_op_witness :
  pdfBytes initialState = None /\
  silent (handleMerge initialState fileABC) /\
  silent (handleMovePage initialState 0 1) /\
  silent (handleDeletePage initialState 0) /\
  silent (openMetadata initialState) /\
  silent (saveMetadata initialState newTitle) /\
  silent (handleApplyFilters initialState tt tt) /\
  silent (handleAddText initialState tt) /\
  silent (handleSave initialState).
Proof.
  split; [reflexivity|].
  exact (@no_document_no_op demoTypes demoEngine initialState fileABC
           0 1 0 newTitle tt tt tt eq_refl).
Defined.

Lemma export_downloads_and_keeps_state_witness :
  pdfBytes loadedABC = Some docABC /\
  handleSave loadedABC = ([Download "edited_abc.pdf" docABC], Some tt) /\
  run loadedABC (steps (handleSave loadedABC)) = loadedABC /\
  renders loadedABC (steps (handleSave loadedABC)) = [loadedABC].
Proof.
  split; [reflexivity|].
  exact (@export_downloads_and_keeps_state demoTypes loadedABC docABC
           eq_refl).
Defined.

Lemma reorder_within_thumbnails_calls_engine_witness :
  pdfBytes loadedABC = Some docABC /\
  0 <= 1 < Z.of_nat (List.length (pages loadedABC)) /\
  exists rest,
    steps (handleMovePage loadedABC 99 1) =
    SetLoading true :: SetLoadingText "Reordering..."
      :: Await (E_movePage docABC 99 1) :: rest.
Proof.
  assert (H : 0 <= 1 < Z.of_nat (List.length (pages loadedABC)))
    by (vm_compute; split; [discriminate|reflexivity]).
  split; [reflexivity|]. split; [exact H|].
  exact (@reorder_within_thumbnails_calls_engine demoTypes demoEngine
           loadedABC docABC 99 1 eq_refl H).
Defined.

(** C9, as the claim states it, fails: a delete of page 0 racing with a
    merge leaves the four-page [docABCZ] under two thumbnails, and there a
    reorder to index 3, within [0, 4), returns at once without calling the
    engine. *)
Lemma reorder_checks_destination_counterexample :
  Interleaving (chunks (steps (handleDeletePage loadedABC 0)))
               (chunks (steps (handleMerge loadedABC fileZ)))
               racedDocumentLast /\
  pdfBytes manyPagesFewThumbnails = Some docABCZ /\
  pageCountOf docABCZ = Some 4 /\
  0 <= 3 < 4 /\
  silent (handleMovePage manyPagesFewThumbnails 0 3) /\
  engineCalls (steps (handleMovePage manyPagesFewThumbnails 0 3)) = [].
Proof.
  split; [exact racedDocumentLast_interleaves|].
  split; [reflexivity|]. split; [reflexivity|].
  split; [lia|]. split; [split; reflexivity|reflexivity].
Qed.

End Demo.

(** ** Beyond the claims: the handlers one by one *)

Section More_handlers.

Context {T : Types} {Engine : PdfUtils}.

Lemma inSync_ext (s s' : State) :
  pdfBytes s' = pdfBytes s -> pages s' = pages s -> inSync s -> inSync s'.
Proof. unfold inSync. intros -> ->. exact (fun H => H). Qed.

(** X1.  An upload whose file can be read installs the bytes it read as
    the current document under the name of the file, whatever the engine
    makes of them, and clears the flag.  If the engine renders them, their
    thumbnails are shown and nothing is alerted; if it rejects them, the
    thumbnails are left as they were and "Error loading PDF" is
    alerted. *)
Theorem upload_installs_what_it_read
    (s : State) (file : File) (bytes : Uint8Array) :
  arrayBuffer file = Some bytes ->
  pdfBytes (perform s (Upload file)) = Some bytes /\
  fileName (perform s (Upload file)) = name file /\
  loading (perform s (Upload file)) = false /\
  match getPdfDetails bytes with
  | Some details =>
      pages (perform s (Upload file)) = thumbnails details /\
      alerts (steps (handleFileUpload file)) = []
  | None =>
      pages (perform s (Upload file)) = pages s /\
      alerts (steps (handleFileUpload file)) = ["Error loading PDF"]
  end.
Proof.
  intros H. unfold_handlers. rewrite H. cbn.
  destruct (getPdfDetails bytes); cbn; repeat split.
Qed.

(** X2.  An operation that logs an error without having asked for
    thumbnails -- its file could not be read, or its own engine call was
    rejected -- leaves the document, the thumbnails, the file name and the
    selection as they were and clears the flag; it alerts the message of
    its own handler, which for reorder and delete is no message at all. *)
Theorem failure_before_loading_keeps_state (s : State) (op : Operation) :
  existsb logsError (steps (dispatch s op)) = true ->
  (forall b,
     ~ In (E_getPdfDetails b) (engineCalls (steps (dispatch s op)))) ->
  pdfBytes (perform s op) = pdfBytes s /\
  pages (perform s op) = pages s /\
  fileName (perform s op) = fileName s /\
  selectedPageIndex (perform s op) = selectedPageIndex s /\
  loading (perform s op) = false /\
  alerts (steps (dispatch s op)) = ownAlert op.
Proof.
  destruct op; unfold_handlers; handler_cases; intros Hlog Hno;
    try discriminate Hlog;
    try (exfalso; eapply Hno; simpl; eauto; fail);
    repeat split; auto.
Qed.

(** X3.  When an operation does ask for the thumbnails of a document and
    the engine rejects, that document is the current one afterwards, under
    the thumbnails that were shown before; the flag is cleared and the one
    alert is "Error loading PDF", whichever operation it was. *)
Theorem rejected_projection_keeps_new_document
    (s : State) (op : Operation) (b : Uint8Array) :
  In (E_getPdfDetails b) (engineCalls (steps (dispatch s op))) ->
  getPdfDetails b = None ->
  pdfBytes (perform s op) = Some b /\
  pages (perform s op) = pages s /\
  loading (perform s op) = false /\
  alerts (steps (dispatch s op)) = ["Error loading PDF"].
Proof.
  destruct op; unfold_handlers; handler_cases; simpl; intros Hin Hrej;
    repeat (destruct Hin as [Hin|Hin]; try discriminate Hin);
    try contradiction;
    inversion Hin; subst; try congruence; repeat split.
Qed.

End More_handlers.

(** ** Beyond the claims: thumbnails, the flag, and races *)

Section More_invariants.

Context {T : Types} {Engine : PdfUtils}.

(** X4.  The thumbnails go out of sync with the document in two ways only.
    Every operation but set-metadata, fired from a state in sync, settles
    in a state in sync unless it alerted "Error loading PDF": it either
    did nothing, or failed and left both as they were, or installed a
    document together with its thumbnails. *)
Theorem operations_stay_in_sync (s : State) (op : Operation) :
  inSync s ->
  viaLoadPdf op = true ->
  ~ In "Error loading PDF" (alerts (steps (dispatch s op))) ->
  inSync (perform s op).
Proof.
  intros Hs Hop.
  destruct op; try discriminate Hop; clear Hop; revert Hs;
    unfold_handlers; handler_cases; intros Hs Hal;
    try (exfalso; apply Hal; simpl; tauto);
    try exact Hs;
    try (apply (inSync_ext _ s); [cbn; congruence|reflexivity|exact Hs]);
    unfold inSync; cbn; eexists; (split; [eassumption|reflexivity]).
Qed.

(** X5.  Whenever an operation is suspended -- on the file read or on an
    engine call -- the state React renders has the flag up: the overlay
    is shown for as long as the operation waits. *)
Theorem overlay_up_at_every_suspension (s : State) (op : Operation) :
  Forall (fun st => loading st = true)
         (suspended s (steps (dispatch s op))).
Proof.
  unfold suspended.
  destruct op; unfold_handlers; handler_cases;
    repeat (constructor; try reflexivity).
Qed.

Lemma react_keeps_flag_down (s : State) (ev : UserEvent) :
  loading s = false -> loading (react s ev) = false.
Proof.
  intros H. unfold react.
  destruct ev as [op| | | | |]; cbn [handle].
  - destruct (steps (dispatch s op)) eqn:E.
    + exact H.
    + rewrite <- E. apply perform_clears_flag. rewrite E. discriminate.
  - unfold_handlers. handler_cases; exact H.
  - unfold_handlers. handler_cases; exact H.
  - exact H.
  - exact H.
  - exact H.
Qed.

(** X6.  From a state with the flag down, whatever the user does -- any
    sequence of operations, openings and closings of the modals and
    exports, each fired once the one before has settled, with the engine
    fulfilling or rejecting as it may -- the flag is down at the end: the
    overlay is never left up. *)
Theorem interaction_leaves_overlay_down
    (evs : list UserEvent) (s : State) :
  loading s = false -> loading (interaction s evs) = false.
Proof.
  revert s. induction evs as [|ev evs IH]; intros s H; [exact H|].
  unfold interaction in *. simpl. apply IH. now apply react_keeps_flag_down.
Qed.

(** X7.  The steps an operation runs after its last suspension end with
    the flag down from any state, not only from the one the operation left
    behind: of two operations in flight, the first to finish takes the
    overlay down while the other is still waiting. *)
Theorem last_chunk_clears_flag (s s0 : State) (op : Operation) :
  steps (dispatch s op) <> [] ->
  loading (run s0 (lastChunk (steps (dispatch s op)))) = false.
Proof.
  unfold lastChunk.
  destruct op; unfold_handlers; handler_cases; intros H;
    solve [reflexivity | now elim H].
Qed.

End More_invariants.

(** ** Beyond the claims: metadata, the modals and the rendered tree *)

Section More_view.

Context {T : Types} {Engine : PdfUtils}.

(** X9.  Opening the metadata dialog on a loaded document calls
    [getMetadata] on the current bytes and nothing else of the engine,
    without raising the flag (the state rendered while it waits is the
    state it started from) and without alerting.  If the engine answers,
    the answer becomes the dialog's metadata and the dialog opens; if it
    rejects, the error leaves the handler uncaught and the state is what
    it was.  The document and the thumbnails stay either way. *)
Theorem openMetadata_reads_without_flag (s : State) (bytes : Uint8Array) :
  pdfBytes s = Some bytes ->
  engineCalls (steps (openMetadata s)) = [E_getMetadata bytes] /\
  suspended s (steps (openMetadata s)) = [s] /\
  alerts (steps (openMetadata s)) = [] /\
  pdfBytes (react s OpenMetadata) = Some bytes /\
  pages (react s OpenMetadata) = pages s /\
  match getMetadata bytes with
  | Some meta =>
      outcome (openMetadata s) = Some tt /\
      currentMetadata (react s OpenMetadata) = Some meta /\
      metadataModalOpen (react s OpenMetadata) = true
  | None =>
      outcome (openMetadata s) = None /\
      react s OpenMetadata = s
  end.
Proof.
  intros H. unfold react, suspended, handle. unfold_handlers. rewrite H.
  cbn. destruct (getMetadata bytes); cbn; repeat split; auto.
Qed.

(** X10.  Saving metadata and then opening the dialog again: the second
    handler reads the metadata of the document the first one installed,
    not of the one it replaced, and shows what the engine returns for
    it. *)
Theorem metadata_is_read_back_from_new_document
    (s : State) (bytes newBytes : Uint8Array) (newMeta meta : PdfMetadata) :
  pdfBytes s = Some bytes ->
  updateMetadata bytes newMeta = Some newBytes ->
  getMetadata newBytes = Some meta ->
  let s1 := react s (Fire (SetMetadata newMeta)) in
  let s2 := react s1 OpenMetadata in
  metadataModalOpen s1 = false /\
  currentMetadata s1 = currentMetadata s /\
  engineCalls (steps (openMetadata s1)) = [E_getMetadata newBytes] /\
  pdfBytes s2 = Some newBytes /\
  currentMetadata s2 = Some meta /\
  metadataModalOpen s2 = true.
Proof.
  intros Hb Hu Hg. unfold react, handle. unfold_handlers.
  rewrite Hb. cbn. rewrite Hu. cbn. rewrite Hg. cbn. repeat split.
Qed.

(** X11.  No operation opens or closes the page editor or changes the
    metadata held for the dialog; and the only one that touches the
    metadata dialog is set-metadata on a loaded document, which closes it
    before calling the engine, so it is closed whether the update is
    fulfilled or rejected. *)
Theorem operations_and_modals (s : State) (op : Operation) :
  editorModalOpen (perform s op) = editorModalOpen s /\
  currentMetadata (perform s op) = currentMetadata s /\
  metadataModalOpen (perform s op) =
    match op, pdfBytes s with
    | SetMetadata _, Some _ => false
    | _, _ => metadataModalOpen s
    end.
Proof.
  destruct op; unfold_handlers; handler_cases; repeat split.
Qed.

Lemma perform_keeps_loaded (s : State) (op : Operation) :
  pdfBytes s <> None -> pdfBytes (perform s op) <> None.
Proof.
  intros H. unfold perform.
  destruct (pdfBytes_run (steps (dispatch s op)) s) as [[E _]|[b [_ E]]];
    rewrite E; [exact H|discriminate].
Qed.

(** X12.  The name offered on export follows the last upload only.  After
    an upload whose file could be read, and then any operations other than
    an upload -- merges with other files included, whether they succeed or
    fail -- export offers the current document under
    [edited_<name of the uploaded file>]. *)
Theorem export_name_follows_last_upload
    (s : State) (file : File) (bytes : Uint8Array) (ops : list Operation) :
  arrayBuffer file = Some bytes ->
  (forall op, In op ops -> forall f, op <> Upload f) ->
  let s' := session (perform s (Upload file)) ops in
  exists current,
    pdfBytes s' = Some current /\
    handleSave s' =
      ([Download ("edited_" ++ name file)%string current], Some tt).
Proof.
  intros Hf Hops s'.
  assert (H : pdfBytes s' <> None /\ fileName s' = name file).
  { subst s'. unfold session.
    assert (H0 : pdfBytes (perform s (Upload file)) <> None /\
                 fileName (perform s (Upload file)) = name file).
    { split.
      - unfold_handlers. rewrite Hf. cbn. handler_cases; discriminate.
      - now apply handleFileUpload_sets_fileName with (bytes := bytes). }
    revert H0. generalize (perform s (Upload file)) as s0.
    induction ops as [|op ops IH]; intros s0 [H1 H2]; [now split|].
    simpl. apply IH.
    - intros op' Hin. apply Hops. now right.
    - split.
      + now apply perform_keeps_loaded.
      + rewrite perform_keeps_fileName; [exact H2|].
        apply Hops. now left. }
  destruct H as [H1 H2]. unfold handleSave.
  destruct (pdfBytes s') as [current|]; [|now elim H1].
  exists current. now rewrite H2.
Qed.

(** X13.  A first upload that the engine rejects does not leave the
    landing page in place: the component renders the toolbar with a file
    present, under the name of the rejected file, and an empty grid of
    pages, with no overlay and no modal. *)
Theorem rejected_first_upload_shows_empty_grid
    (file : File) (bytes : Uint8Array) :
  arrayBuffer file = Some bytes ->
  getPdfDetails bytes = None ->
  main (render initialState) = Landing /\
  render (perform initialState (Upload file)) =
    mkView true (name file) (Grid []) None false None false None ImageNull.
Proof.
  intros Hf Hd. split; [reflexivity|].
  unfold_handlers. rewrite Hf. cbn. rewrite Hd. reflexivity.
Qed.

Lemma mapWithIndex_length {A B} (f : A -> Z -> B) (l : list A) (first : Z) :
  List.length (mapWithIndex f first l) = List.length l.
Proof.
  revert first. induction l as [|a l IH]; intro first; [reflexivity|].
  simpl. now rewrite IH.
Qed.

Lemma mapWithIndex_In {A B} (f : A -> Z -> B) (l : list A) (first : Z)
    (y : B) :
  In y (mapWithIndex f first l) ->
  exists k a, nth_error l k = Some a /\ y = f a (first + Z.of_nat k).
Proof.
  revert first. induction l as [|a l IH]; intros first H; [contradiction|].
  destruct H as [H|H].
  - exists O, a. split; [reflexivity|]. now rewrite Z.add_0_r.
  - destruct (IH _ H) as [k [a' [Hk Hy]]]. exists (S k), a'.
    split; [exact Hk|]. rewrite Hy. f_equal. lia.
Qed.

Lemma handleMovePage_silent_iff (s : State) (bytes : Uint8Array)
    (from to : Z) :
  pdfBytes s = Some bytes ->
  (silent (handleMovePage s from to) <->
   to < 0 \/ Z.of_nat (List.length (pages s)) <= to).
Proof.
  intros Hb. split.
  - intros [Hs _].
    destruct (Z_lt_dec to 0) as [|H0]; [now left|].
    destruct (Z_le_dec (Z.of_nat (List.length (pages s))) to) as [|H1];
      [now right|].
    destruct (@handleMovePage_calls _ _ s bytes from to Hb) as [rest Hr];
      [lia|].
    rewrite Hr in Hs. discriminate Hs.
  - intros H. rewrite (handleMovePage_guard s from H). now split.
Qed.

(** X14.  With a document loaded, the grid has one card per thumbnail, and
    every card carries an index within [0, total), the thumbnail at that
    index, and the thumbnail count as [total].  A reorder from a card to
    the index before it is ignored exactly for the first card, and to the
    index after it exactly for the last. *)
Theorem cards_and_reorder_guard
    (s : State) (bytes : Uint8Array) (cards : list PageCardProps) :
  pdfBytes s = Some bytes ->
  main (render s) = Grid cards ->
  List.length cards = List.length (pages s) /\
  forall c, In c cards ->
    0 <= index c < total c /\
    total c = Z.of_nat (List.length (pages s)) /\
    arrayGet (pages s) (index c) = Some (imageUrl c) /\
    (silent (handleMovePage s (index c) (index c - 1)) <-> index c = 0) /\
    (silent (handleMovePage s (index c) (index c + 1)) <->
     index c = total c - 1).
Proof.
  intros Hb Hm. unfold render in Hm. cbn in Hm. rewrite Hb in Hm.
  inversion Hm as [Hc]. clear Hm. split.
  - apply mapWithIndex_length.
  - intros c Hin. apply mapWithIndex_In in Hin.
    destruct Hin as [k [img [Hk Hc']]]. subst c. cbn.
    assert (Hlt : (k < List.length (pages s))%nat).
    { apply nth_error_Some. rewrite Hk. discriminate. }
    split; [lia|]. split; [reflexivity|]. split.
    + unfold arrayGet. replace (Z.of_nat k <? 0) with false
        by (symmetry; apply Z.ltb_ge; lia).
      now rewrite Nat2Z.id.
    + rewrite !(handleMovePage_silent_iff s _ _ Hb). split; lia.
Qed.

Lemma react_keeps_selection (s : State) (ev : UserEvent) :
  opensEditor ev = false ->
  selectedPageIndex (react s ev) = selectedPageIndex s.
Proof.
  intros H. unfold react. apply run_keeps_selection.
  destruct ev as [op| | | | |]; try discriminate H; cbn [handle].
  - apply dispatch_never_selects.
  - unfold_handlers. handler_cases; reflexivity.
  - unfold_handlers. handler_cases; reflexivity.
  - reflexivity.
  - reflexivity.
Qed.

(** X15.  Once the editor has been opened on index [i], closing it, or
    anything else short of opening it on another page, leaves [i] as the
    page index the editor is given; the image it is given is the thumbnail
    now at index [i], and is [undefined] exactly when [i] lies outside the
    thumbnails now shown. *)
Theorem editor_keeps_its_index
    (s : State) (i : Z) (evs : list UserEvent) :
  forallb (fun ev => negb (opensEditor ev)) evs = true ->
  let s' := interaction (react s (OpenEditor i)) evs in
  editorModal_pageIndex (render s') = Some i /\
  (forall url,
     editorModal_pageImage (render s') = ImageUrl url <->
     arrayGet (pages s') i = Some url) /\
  (editorModal_pageImage (render s') = ImageUndefined <->
   i < 0 \/ Z.of_nat (List.length (pages s')) <= i).
Proof.
  intros Hevs s'.
  assert (Hsel : selectedPageIndex s' = Some i).
  { subst s'. unfold interaction.
    assert (H0 : selectedPageIndex (react s (OpenEditor i)) = Some i)
      by reflexivity.
    revert H0. generalize (react s (OpenEditor i)) as s0.
    induction evs as [|ev evs IH]; intros s0 H0; [exact H0|].
    simpl in Hevs. apply andb_true_iff in Hevs as [Hev Hevs].
    simpl. apply IH; [exact Hevs|].
    rewrite react_keeps_selection; [exact H0|].
    now apply negb_true_iff. }
  unfold render. cbn. rewrite Hsel. split; [reflexivity|]. split.
  - intros url. destruct (arrayGet (pages s') i); split; intros H;
      inversion H; reflexivity.
  - unfold arrayGet. destruct (i <? 0) eqn:E.
    + apply Z.ltb_lt in E. split; [now left|reflexivity].
    + apply Z.ltb_ge in E.
      destruct (nth_error (pages s') (Z.to_nat i)) eqn:N.
      * split; [discriminate|]. intros [H|H]; [lia|].
        assert (Z.to_nat i < List.length (pages s'))%nat
          by (apply nth_error_Some; rewrite N; discriminate).
        lia.
      * split; [|reflexivity]. intros _. right.
        apply nth_error_None in N. lia.
Qed.

End More_view.

(** ** The theorems beyond the claims at concrete inputs *)

Section More_demo.

#[local] Existing Instance demoTypes.
#[local] Existing Instance demoEngine.

Lemma upload_installs_what_it_read_witness :
  arrayBuffer fileBad = Some notAPdf /\
  pdfBytes (perform loadedABC (Upload fileBad)) = Some notAPdf /\
  fileName (perform loadedABC (Upload fileBad)) = "bad.pdf" /\
  loading (perform loadedABC (Upload fileBad)) = false /\
  pages (perform loadedABC (Upload fileBad)) = pages loadedABC /\
  alerts (steps (handleFileUpload fileBad)) = ["Error loading PDF"].
Proof.
  split; [reflexivity|].
  exact (@upload_installs_what_it_read demoTypes demoEngine loadedABC
           fileBad notAPdf eq_refl).
Defined.

Lemma failure_before_loading_keeps_state_witness :
  existsb logsError (steps (dispatch loadedABC (MergeWith fileBad))) = true /\
  (forall b,
     ~ In (E_getPdfDetails b)
          (engineCalls (steps (dispatch loadedABC (MergeWith fileBad))))) /\
  pdfBytes (perform loadedABC (MergeWith fileBad)) = Some docABC /\
  pages (perform loadedABC (MergeWith fileBad)) = ["a"; "b"; "c"] /\
  fileName (perform loadedABC (MergeWith fileBad)) = "abc.pdf" /\
  selectedPageIndex (perform loadedABC (MergeWith fileBad)) = None /\
  loading (perform loadedABC (MergeWith fileBad)) = false /\
  alerts (steps (dispatch loadedABC (MergeWith fileBad))) =
    ["Failed to merge PDF"].
Proof.
  assert (H : forall b,
     ~ In (E_getPdfDetails b)
          (engineCalls (steps (dispatch loadedABC (MergeWith fileBad))))).
  { intros b [H|[]]. discriminate H. }
  split; [reflexivity|]. split; [exact H|].
  exact (@failure_before_loading_keeps_state demoTypes demoEngine loadedABC
           (MergeWith fileBad) eq_refl H).
Defined.

Lemma rejected_projection_keeps_new_document_witness :
  In (E_getPdfDetails notAPdf)
     (engineCalls (steps (dispatch loadedABC (Upload fileBad)))) /\
  getPdfDetails notAPdf = None /\
  pdfBytes (perform loadedABC (Upload fileBad)) = Some notAPdf /\
  pages (perform loadedABC (Upload fileBad)) = ["a"; "b"; "c"] /\
  loading (perform loadedABC (Upload fileBad)) = false /\
  alerts (steps (dispatch loadedABC (Upload fileBad))) =
    ["Error loading PDF"].
Proof.
  assert (H : In (E_getPdfDetails notAPdf)
     (engineCalls (steps (dispatch loadedABC (Upload fileBad)))))
    by (left; reflexivity).
  split; [exact H|]. split; [reflexivity|].
  exact (@rejected_projection_keeps_new_document demoTypes demoEngine
           loadedABC (Upload fileBad) notAPdf H eq_refl).
Defined.

Lemma operations_stay_in_sync_witness :
  inSync loadedABC /\
  viaLoadPdf (T := demoTypes) (Delete 1) = true /\
  ~ In "Error loading PDF"
       (alerts (steps (dispatch loadedABC (Delete 1)))) /\
  inSync (perform loadedABC (Delete 1)).
Proof.
  assert (H : ~ In "Error loading PDF"
       (alerts (steps (dispatch loadedABC (Delete 1)))))
    by (intros []).
  split; [exact loadedABC_inSync|]. split; [reflexivity|].
  split; [exact H|].
  exact (@operations_stay_in_sync demoTypes demoEngine loadedABC (Delete 1)
           loadedABC_inSync eq_refl H).
Defined.

Lemma interaction_leaves_overlay_down_witness :
  loading (@initialState demoTypes) = false /\
  loading (interaction initialState visit) = false.
Proof.
  split; [reflexivity|].
  exact (@interaction_leaves_overlay_down demoTypes demoEngine visit
           initialState eq_refl).
Defined.

Lemma last_chunk_clears_flag_witness :
  steps (dispatch loadedABC (Delete 0)) <> [] /\
  loading busyABC = true /\
  loading (run busyABC (lastChunk (steps (dispatch loadedABC (Delete 0)))))
    = false.
Proof.
  assert (H : steps (dispatch loadedABC (Delete 0)) <> [])
    by discriminate.
  split; [exact H|]. split; [reflexivity|].
  exact (@last_chunk_clears_flag demoTypes demoEngine loadedABC busyABC
           (Delete 0) H).
Defined.

Lemma openMetadata_reads_without_flag_witness :
  pdfBytes loadedABC = Some docABC /\
  engineCalls (steps (openMetadata loadedABC)) = [E_getMetadata docABC] /\
  suspended loadedABC (steps (openMetadata loadedABC)) = [loadedABC] /\
  alerts (steps (openMetadata loadedABC)) = [] /\
  pdfBytes (react loadedABC OpenMetadata) = Some docABC /\
  pages (react loadedABC OpenMetadata) = pages loadedABC /\
  outcome (openMetadata loadedABC) = Some tt /\
  currentMetadata (react loadedABC OpenMetadata) = Some Byte.x54 /\
  metadataModalOpen (react loadedABC OpenMetadata) = true.
Proof.
  split; [reflexivity|].
  exact (@openMetadata_reads_without_flag demoTypes demoEngine loadedABC
           docABC eq_refl).
Defined.

Lemma metadata_is_read_back_from_new_document_witness :
  pdfBytes loadedABC = Some docABC /\
  updateMetadata docABC newTitle =
    Some [Byte.x25; Byte.x55; Byte.x61; Byte.x62; Byte.x63] /\
  getMetadata [Byte.x25; Byte.x55; Byte.x61; Byte.x62; Byte.x63] =
    Some newTitle /\
  currentMetadata
    (interaction loadedABC [Fire (SetMetadata newTitle); OpenMetadata]) =
    Some newTitle.
Proof.
  split; [reflexivity|]. split; [reflexivity|]. split; [reflexivity|].
  exact (proj1 (proj2 (proj2 (proj2 (proj2
    (@metadata_is_read_back_from_new_document demoTypes demoEngine
       loadedABC docABC [Byte.x25; Byte.x55; Byte.x61; Byte.x62; Byte.x63]
       newTitle newTitle eq_refl eq_refl eq_refl)))))).
Defined.

Lemma export_name_follows_last_upload_witness :
  arrayBuffer fileABC = Some docABC /\
  (forall op, In op [MergeWith fileZ; Delete 0] ->
     forall f, op <> Upload (T := demoTypes) f) /\
  exists current,
    pdfBytes (session (perform initialState (Upload fileABC))
                [MergeWith fileZ; Delete 0]) = Some current /\
    handleSave (session (perform initialState (Upload fileABC))
                  [MergeWith fileZ; Delete 0]) =
      ([Download "edited_abc.pdf" current], Some tt).
Proof.
  assert (H : forall op, In op [MergeWith fileZ; Delete 0] ->
     forall f, op <> Upload (T := demoTypes) f).
  { intros op [H|[H|[]]] f; subst op; discriminate. }
  split; [reflexivity|]. split; [exact H|].
  exact (@export_name_follows_last_upload demoTypes demoEngine initialState
           fileABC docABC [MergeWith fileZ; Delete 0] eq_refl H).
Defined.

Lemma rejected_first_upload_shows_empty_grid_witness :
  arrayBuffer fileBad = Some notAPdf /\
  getPdfDetails notAPdf = None /\
  main (render (@initialState demoTypes)) = Landing /\
  render (perform initialState (Upload fileBad)) =
    mkView true "bad.pdf" (Grid []) None false None false None ImageNull.
Proof.
  split; [reflexivity|]. split; [reflexivity|].
  exact (@rejected_first_upload_shows_empty_grid demoTypes demoEngine
           fileBad notAPdf eq_refl eq_refl).
Defined.

Lemma cards_and_reorder_guard_witness :
  pdfBytes loadedABC = Some docABC /\
  main (render loadedABC) =
    Grid [mkCard 0 "a" 3; mkCard 1 "b" 3; mkCard 2 "c" 3] /\
  (silent (handleMovePage loadedABC 2 (2 + 1)) <-> 2 = 3 - 1).
Proof.
  split; [reflexivity|]. split; [reflexivity|].
  exact (proj2 (proj2 (proj2 (proj2
    (proj2 (@cards_and_reorder_guard demoTypes demoEngine loadedABC docABC
              [mkCard 0 "a" 3; mkCard 1 "b" 3; mkCard 2 "c" 3]
              eq_refl eq_refl)
       (mkCard 2 "c" 3) (or_intror (or_intror (or_introl eq_refl)))))))).
Defined.

Lemma editor_keeps_its_index_witness :
  forallb (fun ev => negb (opensEditor (T := demoTypes) ev))
    [Fire (Delete 2); CloseEditor] = true /\
  editorModalOpen
    (interaction (react loadedABC (OpenEditor 2))
       [Fire (Delete 2); CloseEditor]) = false /\
  editorModal_pageIndex
    (render (interaction (react loadedABC (OpenEditor 2))
               [Fire (Delete 2); CloseEditor])) = Some 2 /\
  (editorModal_pageImage
     (render (interaction (react loadedABC (OpenEditor 2))
                [Fire (Delete 2); CloseEditor])) = ImageUndefined <->
   2 < 0 \/
   Z.of_nat (List.length
               (pages (interaction (react loadedABC (OpenEditor 2))
                         [Fire (Delete 2); CloseEditor]))) <= 2).
Proof.
  split; [reflexivity|]. split; [reflexivity|].
  pose proof (@editor_keeps_its_index demoTypes demoEngine loadedABC 2
                [Fire (Delete 2); CloseEditor] eq_refl) as H.
  exact (conj (proj1 H) (proj2 (proj2 H))).
Defined.

End More_demo.
